(** * hacking/test-module.py: the module test harness

    A shallow embedding of [hacking/test-module.py] and the properties of
    its packaging, unwrapping and reporting steps.

    Python [str] values are lists of Unicode code points, [bytes] values are
    lists of bytes, dictionaries are finite maps.  Every function of the
    script is a computation in a small writer/error monad: the writer part
    records what the script does to the outside (lines printed, files
    written, children spawned, collaborators called), the error part is the
    Python exception that ends the computation, if any. *)

From Stdlib Require Import ZArith NArith List String Ascii Bool Lia.
From Stdlib.Strings Require Import Byte.
From stdpp Require Import base option list gmap strings fin_maps.

Set Warnings "-register-all".

Local Open Scope string_scope.
Local Open Scope list_scope.

(** ** Text *)

(** A Python [str]: a sequence of code points. *)
Abbreviation text := (list N).

(** A Python [bytes]. *)
Abbreviation bytes := (list byte).

(** The [str] denoted by a literal of the source (all of them are ASCII). *)
Definition py (s : string) : text :=
  map N_of_ascii (list_ascii_of_string s).

Definition text_eqb (a b : text) : bool := bool_decide (a = b).

(** [s.startswith(prefix)] *)
Fixpoint startswith (s prefix : text) : bool :=
  match prefix, s with
  | [], _ => true
  | _ :: _, [] => false
  | p :: prefix', c :: s' => N.eqb p c && startswith s' prefix'
  end.

(** [s.endswith(suffix)] *)
Definition endswith (s suffix : text) : bool :=
  startswith (rev s) (rev suffix).

(** [needle in hay] for two [str] operands: substring search. *)
Fixpoint contains (needle hay : text) : bool :=
  startswith hay needle ||
  match hay with
  | [] => false
  | _ :: hay' => contains needle hay'
  end.

(** Line boundaries of [str.splitlines]: LF, VT, FF, CR, FS, GS, RS, NEL,
    LINE SEPARATOR and PARAGRAPH SEPARATOR (CR LF counts as one). *)
Definition is_linebreak (c : N) : bool :=
  match c with
  | 10 | 11 | 12 | 13 | 28 | 29 | 30 | 133 | 8232 | 8233 => true
  | _ => false
  end%N.

(** [s.splitlines()]: [cur] is the line read so far, reversed.  A final
    line without terminator is kept; nothing follows a final terminator. *)
Fixpoint splitlines_from (cur s : text) : list text :=
  match s with
  | [] => match cur with [] => [] | _ :: _ => [rev cur] end
  | c :: s' =>
      if is_linebreak c then
        rev cur ::
        match c, s' with
        | 13%N, 10%N :: s'' => splitlines_from [] s''
        | _, _ => splitlines_from [] s'
        end
      else splitlines_from (c :: cur) s'
  end.

Definition splitlines (s : text) : list text := splitlines_from [] s.

(** [str.isspace] on one code point (the Unicode white space set). *)
Definition is_space (c : N) : bool :=
  ((9 <=? c) && (c <=? 13) || (28 <=? c) && (c <=? 32) ||
   (c =? 133) || (c =? 160) || (c =? 5760) ||
   (8192 <=? c) && (c <=? 8202) || (c =? 8232) || (c =? 8233) ||
   (c =? 8239) || (c =? 8287) || (c =? 12288))%N.

Fixpoint lstrip (s : text) : text :=
  match s with
  | c :: s' => if is_space c then lstrip s' else s
  | [] => []
  end.

(** [s.strip()] *)
Definition strip (s : text) : text := rev (lstrip (rev (lstrip s))).

(** [posixpath.join(a, b)] for two components. *)
Definition path_join (a b : text) : text :=
  if startswith b (py "/") then b
  else if text_eqb a [] || endswith a (py "/") then a ++ b
  else a ++ py "/" ++ b.

(** ** Values, exceptions, and the harness monad *)

(** Values stored in the module argument dictionary. *)
Inductive value :=
| VNone
| VBool (b : bool)
| VInt (n : Z)
| VStr (s : text)
| VList (items : list value)
| VDict (items : list (text * value)).

(** A document decoded by [json.loads]; a number keeps its literal. *)
Inductive json :=
| JNull
| JBool (b : bool)
| JNumber (literal : text)
| JString (s : text)
| JArray (items : list json)
| JObject (members : list (text * json)).

(** The argument of [sys.exit]. *)
Inductive exit_arg :=
| ExitNone
| ExitInt (n : Z)
| ExitText (message : text).

(** The exceptions the script can end with: an unbound global name, a
    [sys.exit], or an exception raised inside a collaborator. *)
Inductive exn :=
| NameError (name : string)
| SystemExit (code : exit_arg)
| Error (kind : string).

Inductive outcome (A : Type) :=
| Returned (a : A)
| Raised (e : exn).
Arguments Returned {A} a.
Arguments Raised {A} e.

(** What a run does to the outside, in order. *)
Inductive event :=
| Print (line : text)                  (* print(line) *)
| PrintExc                             (* traceback.print_exc() *)
| Chmod (path : text) (mode : Z)       (* os.chmod(path, mode) *)
| Spawn (shell : bool) (command : list text)   (* subprocess.Popen(...).communicate() *)
| LoadFromFile (path : text)           (* loader.load_from_file(path) *)
| Load (document : text)               (* loader.load(document) *)
| ParseKv (args : text)                (* module_common.parse_kv(args) *)
| ModifyModule (name path : text) (args : gmap text value)
               (task_vars : gmap text text)     (* module_common.modify_module(...) *)
| WriteFile (path : text) (data : bytes)       (* open(path, 'wb').write(data) *)
| Rmtree (path : value).               (* shutil.rmtree(path, True) *)

Definition M (A : Type) : Type := list event * outcome A.

#[global] Instance M_ret : MRet M := fun A a => ([], Returned a).

#[global] Instance M_bind : MBind M := fun A B k m =>
  match m with
  | (t, Returned a) => let '(t', r) := k a in (t ++ t', r)
  | (t, Raised e) => (t, Raised e)
  end.

Definition raise {A} (e : exn) : M A := ([], Raised e).

(** One observable action that cannot fail. *)
Definition emit (ev : event) : M unit := ([ev], Returned tt).

(** A call to a collaborator: the call is observable, its result is the
    collaborator's. *)
Definition call {A} (ev : event) (r : outcome A) : M A := ([ev], r).

(** A call that is observable only when it succeeds. *)
Definition attempt (ev : event) (r : outcome unit) : M unit :=
  match r with
  | Returned _ => ([ev], Returned tt)
  | Raised e => ([], Raised e)
  end.

(** A pure collaborator result. *)
Definition lift {A} (r : outcome A) : M A := ([], r).

(** [print(line)] for a line made of literals of the script and of text of
    the command line, which the standard output stream is taken to encode.
    Text decoded from the streams of a child is printed by [print_decoded]
    below, which can raise. *)
Definition print (line : text) : M unit := emit (Print line).

(** [except Exception] catches every exception but [SystemExit]. *)
Definition is_exception (e : exn) : bool :=
  match e with
  | SystemExit _ => false
  | NameError _ | Error _ => true
  end.

(** [try: body except Exception: handler]. *)
Definition try_except {A} (body handler : M A) : M A :=
  match body with
  | (t, Returned a) => (t, Returned a)
  | (t, Raised e) =>
      if is_exception e then let '(t', r) := handler in (t ++ t', r)
      else (t, Raised e)
  end.

(** [try: body finally: final]: [final] always runs; when it raises, its
    exception replaces whatever [body] ended with. *)
Definition try_finally {A} (body : M A) (final : M unit) : M A :=
  let '(t1, r) := body in
  let '(t2, f) := final in
  (t1 ++ t2, match f with Raised e => Raised e | Returned _ => r end).

(** The exit status of the interpreter when the main module ends with [r]:
    0 on a normal end and on [sys.exit()] / [sys.exit(None)], the low byte of
    [n] on [sys.exit(n)], 1 when the argument of [sys.exit] is any other
    object (which is printed on the error stream) and 1 on any uncaught
    exception (with its trace). *)
Definition exit_status {A} (r : outcome A) : Z :=
  match r with
  | Returned _ => 0
  | Raised (SystemExit ExitNone) => 0
  | Raised (SystemExit (ExitInt n)) => Z.land n 255
  | Raised (SystemExit (ExitText _)) => 1
  | Raised (NameError _) => 1
  | Raised (Error _) => 1
  end.

(** The lines a run prints, in order. *)
Definition printed (t : list event) : list text :=
  omap (fun ev => match ev with Print line => Some line | _ => None end) t.

(** ** The module namespace *)

(** The global names [hacking/test-module.py] binds: the imports of lines
    25 to 41 and the five functions it defines. *)
Definition module_globals : list string :=
  [ "absolute_import"; "division"; "print_function";
    "argparse"; "json"; "os"; "subprocess"; "sys"; "traceback";
    "to_text"; "DataLoader"; "init_plugin_loader"; "Templar";
    "__version__"; "module_common"; "C";
    "parse"; "boilerplate_module"; "runtest"; "ansiballz_setup"; "main" ].

(** Evaluation of a global name.  The script also reads [utils_vars],
    [glob], [shutil] and [rundebug]; none of them is a builtin, so the result
    of reading them is decided by [module_globals].  Reads of the names
    listed there always succeed and are left implicit below. *)
Definition global (name : string) : M unit :=
  if bool_decide (name ∈ module_globals) then mret tt
  else raise (NameError name).

(** ** Path functions of [os.path] *)

(** [posixpath.basename(p)]: what follows the last slash. *)
Fixpoint basename_from (cur p : text) : text :=
  match p with
  | [] => rev cur
  | c :: p' => if (c =? 47)%N then basename_from [] p' else basename_from (c :: cur) p'
  end.

Definition basename (p : text) : text := basename_from [] p.

(** [p.rfind(c)], as the number of code points before the last [c]. *)
Fixpoint rfind_from (c : N) (p : text) (i : nat) (found : option nat) : option nat :=
  match p with
  | [] => found
  | d :: p' => rfind_from c p' (S i) (if (d =? c)%N then Some i else found)
  end.

Definition rfind (c : N) (p : text) : option nat := rfind_from c p 0 None.

(** [posixpath.splitext(p)]: the extension starts at the last dot of the
    last component, unless only dots come before it in that component. *)
Definition splitext (p : text) : text * text :=
  match rfind 46%N p with
  | None => (p, [])
  | Some dotIndex =>
      let filenameIndex := match rfind 47%N p with Some sepIndex => S sepIndex | None => 0 end in
      if existsb (fun c => negb (c =? 46)%N) (take (dotIndex - filenameIndex) (drop filenameIndex p))
      then (take dotIndex p, drop dotIndex p)
      else (p, [])
  end.

(** ** Collaborators *)

(** The [argparse.Namespace] returned by [parse()], for a command line that
    gives [-m]. *)
Record cli_args := {
  module_path : text;
  module_args : text;
  debugger : option text;
  interpreter : text;
  check : bool;
  execute : bool;
  filename : text;
}.

(** Everything the script takes from outside its own file: the constants
    of [ansible.constants] and [ansible.release], the loader, the packaging
    engine, the text converters, the operating system and the standard
    library's JSON codec.  A collaborator that can raise returns an
    [outcome].  [stdout_accepts] tells which texts the encoder of the
    standard output stream encodes: a strict stream rejects the lone
    surrogates that stand for the undecodable bytes of a child. *)
Record Env := {
  DEFAULT_SELINUX_SPECIAL_FS : value;
  DEFAULT_LOCAL_TMP : value;
  DEFAULT_KEEP_REMOTE_FILES : value;
  version : value;
  parse : outcome cli_args;
  init_plugin_loader : outcome unit;
  get_interpreters : text -> outcome (gmap text text);
  load_from_file : text -> outcome (gmap text value);
  load : text -> outcome (gmap text value);
  parse_kv : text -> outcome (gmap text value);
  modify_module : text -> text -> gmap text value -> gmap text text ->
                  outcome (bytes * text * text);
  to_text : bytes -> text;
  to_text_strict : bytes -> outcome text;
  expanduser : text -> text;
  os_chmod : text -> Z -> outcome unit;
  open_wb : text -> outcome unit;
  popen : bool -> list text -> outcome (bytes * bytes);
  json_loads : text -> option json;
  json_dumps : json -> text;
  stdout_accepts : text -> bool;
  glob_glob : text -> list text;
  os_walk : text -> list (text * list text * list text);
  rundebug : text -> text -> text -> text -> gmap text text -> outcome unit;
}.

(** Modelled from the spec: [ansible.utils.vars.combine_vars], which is not
    part of the script.  "Later values overwrite earlier values for the same
    key; no deep merging of nested structures is required": the entries of
    [b] win over those of [a]. *)
Definition combine_vars (a b : gmap text value) : gmap text value := b ∪ a.

(** ** Literals of the script *)

Definition stars : text := repeat 42%N 35.
Definition wrapper_marker : text := py "_ANSIBALLZ_WRAPPER = True".
Definition expansion_marker : text := py "Module expanded into".
Definition offset_warning : text :=
  py "* this may offset any line numbers in tracebacks/debuggers!".
Definition saving_note (path : text) : text :=
  py "* including generated source, if any, saving to: " ++ path.
Definition detected_note (debug_dir : text) : text :=
  py "* ansiballz module detected; extracted module source to: " ++ debug_dir.
Definition python_interpreter : text := py "ansible_python_interpreter".

(** ** The script *)

Section Script.
Context (E : Env).

(** Lines 82 to 103 of [boilerplate_module]: the argument dictionary handed
    to the packaging engine.  In [utils_vars.combine_vars(x, f(y))] the
    callee is evaluated before the argument [f(y)]. *)
Definition normalize_args (args : text) (check : bool) : M (gmap text value) :=
  let complex_args : gmap text value := ∅ in
  let complex_args := <[py "_ansible_selinux_special_fs" := DEFAULT_SELINUX_SPECIAL_FS E]> complex_args in
  let complex_args := <[py "_ansible_tmpdir" := DEFAULT_LOCAL_TMP E]> complex_args in
  let complex_args := <[py "_ansible_keep_remote_files" := DEFAULT_KEEP_REMOTE_FILES E]> complex_args in
  let complex_args := <[py "_ansible_version" := version E]> complex_args in
  '(complex_args, args) ←
    (if startswith args (py "@") then
       global "utils_vars";;
       loaded ← call (LoadFromFile (drop 1 args)) (load_from_file E (drop 1 args));
       mret (combine_vars complex_args loaded, [])
     else if startswith args (py "{") then
       global "utils_vars";;
       loaded ← call (Load args) (load E args);
       mret (combine_vars complex_args loaded, [])
     else mret (complex_args, args));
  complex_args ←
    (match args with
     | _ :: _ =>
         parsed_args ← call (ParseKv args) (parse_kv E args);
         global "utils_vars";;
         mret (combine_vars complex_args parsed_args)
     | [] => mret complex_args
     end);
  mret (if check then <[py "_ansible_check_mode" := VBool true]> complex_args
        else complex_args).

(** Lines 115 and 116: the style after the wrapper marker was looked for. *)
Definition classify (module_style : text) (module_data : bytes) : text :=
  if text_eqb module_style (py "new") && contains wrapper_marker (to_text E module_data)
  then py "ansiballz"
  else module_style.

(** The test of line 120: [module_style not in ('ansiballz', 'old')]. *)
Definition warns (module_style : text) : bool :=
  negb (text_eqb module_style (py "ansiballz") || text_eqb module_style (py "old")).

Definition boilerplate_module (modfile args : text) (interpreters : gmap text text)
    (check : bool) (destfile : text) : M (text * text * text) :=
  complex_args ← normalize_args args check;
  let task_vars := interpreters in
  let modname := basename modfile in
  let modname := fst (splitext modname) in
  '(module_data, module_style, shebang) ←
    call (ModifyModule modname modfile complex_args task_vars)
         (modify_module E modname modfile complex_args task_vars);
  let module_style := classify module_style module_data in
  let modfile2_path := expanduser E destfile in
  print (saving_note modfile2_path);;
  (if warns module_style
   then print offset_warning
   else mret tt);;
  attempt (WriteFile modfile2_path module_data) (open_wb E modfile2_path);;
  mret (modfile2_path, modname, module_style).

(** [print(line)] for text decoded from a stream of a child: the stream
    encodes the whole text before it writes any of it, and raises
    [UnicodeEncodeError] when it cannot. *)
Definition print_decoded (line : text) : M unit :=
  if stdout_accepts E line then emit (Print line)
  else raise (Error "UnicodeEncodeError").

(** The loop over [filenames] at lines 199 to 202: the [break] leaves this
    loop, and only this one. *)
Fixpoint scan_filenames (dirname modname : text) (filenames : list text)
    (modfile : text) : text :=
  match filenames with
  | [] => modfile
  | filename :: rest =>
      if text_eqb filename (modname ++ py ".py")
      then path_join dirname filename
      else scan_filenames dirname modname rest modfile
  end.

(** The loop over [os.walk(module_dir)] at line 198. *)
Definition scan_walk (modname : text) (walk : list (text * list text * list text))
    (modfile : text) : text :=
  fold_left (fun modfile '(dirname, directories, filenames) =>
               scan_filenames dirname modname filenames modfile)
            walk modfile.

(** The loop over [core_dirs + collection_dirs] at line 197. *)
Definition locate_module (modname : text) (module_dirs : list text) (modfile : text) : text :=
  fold_left (fun modfile module_dir => scan_walk modname (os_walk E module_dir) modfile)
            module_dirs modfile.

(** The test of line 187; [lines[0]] is read only when there are two lines. *)
Definition explode_output_bad (lines : list text) : bool :=
  negb (length lines =? 2)%nat || negb (contains expansion_marker (nth 0 lines [])).

(** Lines 177 to 181: the command of the explode child. *)
Definition explode_command (modfile : text) (interpreters : gmap text text) : list text :=
  let command :=
    match interpreters !! python_interpreter with
    | Some interp => [interp]
    | None => []
    end in
  command ++ [modfile; py "explode"].

Definition ansiballz_setup (modfile modname : text) (interpreters : gmap text text)
    : M (text * text) :=
  attempt (Chmod modfile 493) (os_chmod E modfile 493);;
  let command := explode_command modfile interpreters in
  '(out, err) ← call (Spawn false command) (popen E false command);
  out ← lift (to_text_strict E out);
  let err := to_text E err in
  let lines := splitlines out in
  if explode_output_bad lines then
    print stars;;
    print (py "INVALID OUTPUT FROM ANSIBALLZ MODULE WRAPPER");;
    print_decoded out;;
    raise (SystemExit (ExitText err))
  else
    let debug_dir := strip (nth 1 lines []) in
    global "glob";;
    let core_dirs := glob_glob E (path_join debug_dir (py "ansible/modules")) in
    let collection_dirs :=
      glob_glob E (path_join debug_dir (py "ansible_collections/*/*/plugins/modules")) in
    let modfile := locate_module modname (core_dirs ++ collection_dirs) modfile in
    let argsfile := path_join debug_dir (py "args") in
    print_decoded (detected_note debug_dir);;
    mret (modfile, argsfile).

(** Lines 136 to 140 of [runtest]: the file to run and the interpreter
    prefix of the command. *)
Definition runtest_resolve (modfile modname module_style : text)
    (interpreters : gmap text text) : M (text * text) :=
  let invoke : text := [] in
  if text_eqb module_style (py "ansiballz") then
    '(modfile, _) ← ansiballz_setup modfile modname interpreters;
    match interpreters !! python_interpreter with
    | Some interp => mret (modfile, interp ++ py " ")
    | None => mret (modfile, invoke)
    end
  else mret (modfile, invoke).

(** Lines 149 to 160: the [try] block and its handler.  The block encloses
    the four prints and [json.loads]; the handler runs for an exception of
    any of them, and an exception of the handler's own [print(out)] leaves
    [runtest]. *)
Definition report_raw (out err : text) : M json :=
  try_except
    (print stars;;
     print (py "RAW OUTPUT");;
     print_decoded out;;
     print_decoded err;;
     match json_loads E out with
     | Some results => mret results
     | None => raise (Error "JSONDecodeError")
     end)
    (print stars;;
     print (py "INVALID OUTPUT FORMAT");;
     print_decoded out;;
     emit PrintExc;;
     raise (SystemExit (ExitInt 1))).

Definition runtest (modfile modname module_style : text)
    (interpreters : gmap text text) : M unit :=
  '(modfile, invoke) ← runtest_resolve modfile modname module_style interpreters;
  attempt (Chmod modfile 493) (os_chmod E modfile 493);;
  let invoke := invoke ++ modfile in
  '(out, err) ← call (Spawn true [invoke]) (popen E true [invoke]);
  let out := to_text E out in
  let err := to_text E err in
  results ← report_raw out err;
  print stars;;
  print (py "PARSED OUTPUT");;
  print (json_dumps E results).

(** [if args.debugger]: neither [None] nor the empty string. *)
Definition truthy (s : option text) : bool :=
  match s with
  | Some (_ :: _) => true
  | _ => false
  end.

Definition main : M unit :=
  args ← lift (parse E);
  lift (init_plugin_loader E);;
  interpreters ← lift (get_interpreters E (interpreter args));
  '(modfile, modname, module_style) ←
    boilerplate_module (module_path args) (module_args args) interpreters
                       (check args) (filename args);
  if execute args then
    if truthy (debugger args) then
      global "rundebug";;
      match debugger args with
      | Some dbg => lift (rundebug E dbg modfile modname module_style interpreters)
      | None => mret tt
      end
    else runtest modfile modname module_style interpreters
  else mret tt.

(** Lines 224 to 228: the script run as a program. *)
Definition harness : M unit :=
  try_finally main (global "shutil";; emit (Rmtree (DEFAULT_LOCAL_TMP E))).

End Script.

(** ** Stand-ins for the collaborators, to run the script on examples *)

Module Mock.

(** ASCII text as bytes and back. *)
Definition encode (s : string) : bytes := list_byte_of_string s.
Definition decode (b : bytes) : text := map Byte.to_N b.
Definition to_bytes (t : text) : bytes :=
  map (fun c => match Byte.of_N c with Some b => b | None => x00 end) t.

Definition nl : text := [10%N].
Definition quoted (s : string) : text := [34%N] ++ py s ++ [34%N].

(** The document [{"changed": false, "msg": "ok"}], its decoded value and
    the text [json.dumps(..., indent=4, sort_keys=True)] gives for it. *)
Definition ok_document : text :=
  py "{" ++ quoted "changed" ++ py ": false, " ++ quoted "msg" ++ py ": " ++ quoted "ok" ++ py "}".
Definition ok_value : json :=
  JObject [(py "changed", JBool false); (py "msg", JString (py "ok"))].
Definition ok_pretty : text :=
  py "{" ++ nl ++ py "    " ++ quoted "changed" ++ py ": false," ++ nl ++
  py "    " ++ quoted "msg" ++ py ": " ++ quoted "ok" ++ nl ++ py "}".

(** What varies between the examples: the command line, what the packaging
    engine returns, what a child process prints, and the directory tree. *)
Record scenario := {
  command_line : cli_args;
  reported_style : text;
  payload : bytes;
  child : bool -> list text -> bytes * bytes;
  globbed : text -> list text;
  walked : text -> list (text * list text * list text);
}.

Definition env (s : scenario) : Env := {|
  DEFAULT_SELINUX_SPECIAL_FS := VList [VStr (py "fuse"); VStr (py "nfs"); VStr (py "vboxsf")];
  DEFAULT_LOCAL_TMP := VStr (py "/tmp/ansible-local");
  DEFAULT_KEEP_REMOTE_FILES := VBool false;
  version := VStr (py "2.17.0");
  parse := Returned (command_line s);
  init_plugin_loader := Returned tt;
  get_interpreters := fun _ => Returned {[ python_interpreter := py "/usr/bin/python" ]};
  load_from_file := fun _ => Returned {[ py "name" := VStr (py "foo") ]};
  load := fun _ => Returned {[ py "_ansible_tmpdir" := VStr (py "/x") ]};
  parse_kv := fun _ => Returned {[ py "a" := VStr (py "2") ]};
  modify_module := fun _ _ _ _ => Returned (payload s, reported_style s, py "#!/usr/bin/python");
  to_text := decode;
  to_text_strict := fun b => Returned (decode b);
  expanduser := fun p => p;
  os_chmod := fun _ _ => Returned tt;
  open_wb := fun _ => Returned tt;
  popen := fun shell command => Returned (child s shell command);
  json_loads := fun t => if text_eqb t ok_document then Some ok_value else None;
  json_dumps := fun j => match j with JObject [_; _] => ok_pretty | _ => py "null" end;
  stdout_accepts := fun _ => true;
  glob_glob := globbed s;
  os_walk := walked s;
  rundebug := fun _ _ _ _ _ => Returned tt;
|}.

Definition cli (args : string) : cli_args := {|
  module_path := py "/src/ping.py";
  module_args := py args;
  debugger := None;
  interpreter := py "ansible_python_interpreter=/usr/bin/python";
  check := false;
  execute := true;
  filename := py "/tmp/generated";
|}.

(** A module that prints [stdout] and nothing on its error stream. *)
Definition prints (stdout : text) : bool -> list text -> bytes * bytes :=
  fun _ _ => (to_bytes stdout, []).

Definition plain (args : string) (style : string) (stdout : text) : scenario := {|
  command_line := cli args;
  reported_style := py style;
  payload := encode "#!/usr/bin/python";
  child := prints stdout;
  globbed := fun _ => [];
  walked := fun _ => [];
|}.



(** A bundled module: the explode child (started without a shell) prints
    [exploded] on its output and [complaint] on its error stream; the module
    itself prints [ok_document].  [tree] is what [os.walk] finds. *)
Definition bundled (exploded complaint : text)
    (tree : text -> list (text * list text * list text)) : scenario := {|
  command_line := cli "";
  reported_style := py "new";
  payload := encode "_ANSIBALLZ_WRAPPER = True";
  child := fun shell _ =>
    if shell then (to_bytes ok_document, []) else (to_bytes exploded, to_bytes complaint);
  globbed := fun pattern =>
    if text_eqb pattern (py "/tmp/debug_dir/ansible/modules") then [pattern]
    else if text_eqb pattern (py "/tmp/debug_dir/ansible_collections/*/*/plugins/modules")
    then [py "/tmp/debug_dir/ansible_collections/ns/col/plugins/modules"]
    else [];
  walked := tree;
|}.

Definition expanded : text :=
  py "Module expanded into:" ++ nl ++ py "/tmp/debug_dir" ++ nl.

(** [ping.py] both among the built-in modules (in a subdirectory) and in a
    collection. *)
Definition two_copies (top : text) : list (text * list text * list text) :=
  if text_eqb top (py "/tmp/debug_dir/ansible/modules") then
    [(top, [py "system"], [py "__init__.py"]);
     (top ++ py "/system", [], [py "__init__.py"; py "ping.py"])]
  else if text_eqb top (py "/tmp/debug_dir/ansible_collections/ns/col/plugins/modules") then
    [(top, [], [py "ping.py"])]
  else [].

(** No [ping.py] anywhere. *)
Definition no_copy (top : text) : list (text * list text * list text) :=
  if text_eqb top (py "/tmp/debug_dir/ansible/modules") then
    [(top, [], [py "__init__.py"; py "setup.py"])]
  else [].

(** [E] with another packaging engine, another [open] and another command
    line. *)
Definition altered (E : Env)
    (engine : text -> text -> gmap text value -> gmap text text -> outcome (bytes * text * text))
    (opener : text -> outcome unit) (parsed : outcome cli_args) : Env := {|
  DEFAULT_SELINUX_SPECIAL_FS := DEFAULT_SELINUX_SPECIAL_FS E;
  DEFAULT_LOCAL_TMP := DEFAULT_LOCAL_TMP E;
  DEFAULT_KEEP_REMOTE_FILES := DEFAULT_KEEP_REMOTE_FILES E;
  version := version E;
  parse := parsed;
  init_plugin_loader := init_plugin_loader E;
  get_interpreters := get_interpreters E;
  load_from_file := load_from_file E;
  load := load E;
  parse_kv := parse_kv E;
  modify_module := engine;
  to_text := to_text E;
  to_text_strict := to_text_strict E;
  expanduser := expanduser E;
  os_chmod := os_chmod E;
  open_wb := opener;
  popen := popen E;
  json_loads := json_loads E;
  json_dumps := json_dumps E;
  stdout_accepts := stdout_accepts E;
  glob_glob := glob_glob E;
  os_walk := os_walk E;
  rundebug := rundebug E;
|}.

(** A packaging engine that rejects the module. *)
Definition broken_engine : Env :=
  altered (env (plain "" "new" ok_document))
          (fun _ _ _ _ => Raised (Error "AnsibleError"))
          (open_wb (env (plain "" "new" ok_document)))
          (parse (env (plain "" "new" ok_document))).


(** The command lines [-n] and [-D /usr/bin/pdb]. *)
Definition cli_noexecute : cli_args := {|
  module_path := py "/src/ping.py";
  module_args := [];
  debugger := None;
  interpreter := py "ansible_python_interpreter=/usr/bin/python";
  check := false;
  execute := false;
  filename := py "/tmp/generated";
|}.

Definition cli_debugger : cli_args := {|
  module_path := py "/src/ping.py";
  module_args := [];
  debugger := Some (py "/usr/bin/pdb");
  interpreter := py "ansible_python_interpreter=/usr/bin/python";
  check := false;
  execute := true;
  filename := py "/tmp/generated";
|}.

Definition with_cli (a : cli_args) : Env :=
  altered (env (plain "" "old" ok_document))
          (modify_module (env (plain "" "old" ok_document)))
          (open_wb (env (plain "" "old" ok_document)))
          (Returned a).

(** Undecodable bytes become lone surrogates ([surrogateescape]). *)
Definition decode_escaped (b : bytes) : text :=
  map (fun x => let n := Byte.to_N x in if (n <? 128)%N then n else (56320 + n)%N) b.

Definition has_no_surrogate (t : text) : bool :=
  forallb (fun c => negb ((55296 <=? c) && (c <=? 57343))%N) t.

(** The collaborators of scenario [s], with children whose bytes are
    decoded with [surrogateescape] and a strict standard output. *)
Definition strict (s : scenario) : Env := {|
  DEFAULT_SELINUX_SPECIAL_FS := DEFAULT_SELINUX_SPECIAL_FS (env s);
  DEFAULT_LOCAL_TMP := DEFAULT_LOCAL_TMP (env s);
  DEFAULT_KEEP_REMOTE_FILES := DEFAULT_KEEP_REMOTE_FILES (env s);
  version := version (env s);
  parse := parse (env s);
  init_plugin_loader := init_plugin_loader (env s);
  get_interpreters := get_interpreters (env s);
  load_from_file := load_from_file (env s);
  load := load (env s);
  parse_kv := parse_kv (env s);
  modify_module := modify_module (env s);
  to_text := decode_escaped;
  to_text_strict := fun b => Returned (decode_escaped b);
  expanduser := expanduser (env s);
  os_chmod := os_chmod (env s);
  open_wb := open_wb (env s);
  popen := popen (env s);
  json_loads := json_loads (env s);
  json_dumps := json_dumps (env s);
  stdout_accepts := has_no_surrogate;
  glob_glob := glob_glob (env s);
  os_walk := os_walk (env s);
  rundebug := rundebug (env s);
|}.


(** A legacy module that prints [ok_document] on [stdout] and the byte E9 on
    [stderr]. *)
Definition latin1_stderr : scenario := {|
  command_line := cli "";
  reported_style := py "old";
  payload := encode "#!/usr/bin/python";
  child := fun _ _ => (to_bytes ok_document, [xe9]);
  globbed := fun _ => [];
  walked := fun _ => [];
|}.

(** A bundled module whose explode child prints the single byte E9. *)
Definition latin1_explode : scenario := {|
  command_line := cli "";
  reported_style := py "new";
  payload := encode "_ANSIBALLZ_WRAPPER = True";
  child := fun _ _ => ([xe9], to_bytes (py "no such option: explode"));
  globbed := fun _ => [];
  walked := fun _ => [];
|}.

End Mock.

(** ** Properties *)

(** *** The text and path functions and the namespace on examples *)

Example splitlines_ex1 :
  splitlines (py "Module expanded into:" ++ [10%N] ++ py "/tmp/debug_dir" ++ [10%N])
  = [py "Module expanded into:"; py "/tmp/debug_dir"].
Proof. reflexivity. Qed.

Example splitlines_ex2 : splitlines (py "a" ++ [13%N; 10%N; 10%N] ++ py "b") = [py "a"; []; py "b"].
Proof. reflexivity. Qed.

Example splitlines_ex3 : splitlines [] = [].
Proof. reflexivity. Qed.

Example strip_ex : strip (py "  /tmp/x y ") = py "/tmp/x y".
Proof. reflexivity. Qed.

Example path_join_ex : path_join (py "/tmp/d") (py "args") = py "/tmp/d/args".
Proof. reflexivity. Qed.

Example utils_vars_unbound : global "utils_vars" = ([], Raised (NameError "utils_vars")).
Proof. reflexivity. Qed.

Example glob_unbound : global "glob" = ([], Raised (NameError "glob")).
Proof. reflexivity. Qed.

Example shutil_unbound : global "shutil" = ([], Raised (NameError "shutil")).
Proof. reflexivity. Qed.

Example rundebug_unbound : global "rundebug" = ([], Raised (NameError "rundebug")).
Proof. reflexivity. Qed.

Example os_bound : global "os" = ([], Returned tt).
Proof. reflexivity. Qed.

Example basename_ex : basename (py "/usr/lib/modules/ping.py") = py "ping.py".
Proof. reflexivity. Qed.

Example splitext_ex1 : splitext (py "ping.py") = (py "ping", py ".py").
Proof. reflexivity. Qed.

Example splitext_ex2 : splitext (py ".bashrc") = (py ".bashrc", []).
Proof. reflexivity. Qed.

Example splitext_ex3 : splitext (py "a.b/c") = (py "a.b/c", []).
Proof. reflexivity. Qed.

Ltac run_step := unfold mbind, M_bind, mret, M_ret, call, lift, print, emit, raise; simpl.

(** *** The argument dictionary *)

Section Normalize.
Context (E : Env).

(** With an empty argument string neither loader nor [parse_kv] is called,
    and the dictionary holds the four injected entries. *)
Lemma normalize_args_empty :
  normalize_args E [] false =
  ([], Returned (<[py "_ansible_version" := version E]>
                 (<[py "_ansible_keep_remote_files" := DEFAULT_KEEP_REMOTE_FILES E]>
                  (<[py "_ansible_tmpdir" := DEFAULT_LOCAL_TMP E]>
                   (<[py "_ansible_selinux_special_fs" := DEFAULT_SELINUX_SPECIAL_FS E]> ∅))))).
Proof. reflexivity. Qed.

(** A file reference or a literal document: [utils_vars] is read before the
    loader is called, and the read fails. *)
Lemma normalize_args_at (args : text) (check : bool) :
  startswith args (py "@") = true →
  normalize_args E args check = ([], Raised (NameError "utils_vars")).
Proof. intros H. unfold normalize_args. rewrite H. reflexivity. Qed.

Lemma normalize_args_brace (args : text) (check : bool) :
  startswith args (py "{") = true →
  normalize_args E args check = ([], Raised (NameError "utils_vars")).
Proof.
  intros H. unfold normalize_args.
  destruct (startswith args (py "@")); [reflexivity|].
  rewrite H. reflexivity.
Qed.

(** Inline arguments: [parse_kv] is called, then the read of [utils_vars]
    fails, unless [parse_kv] has raised already. *)
Lemma normalize_args_inline (args : text) (check : bool) :
  args ≠ [] →
  startswith args (py "@") = false →
  startswith args (py "{") = false →
  normalize_args E args check =
  ([ParseKv args],
   Raised (match parse_kv E args with
           | Returned _ => NameError "utils_vars"
           | Raised e => e
           end)).
Proof.
  intros Hne H1 H2. unfold normalize_args. rewrite H1, H2.
  destruct args as [|c args]; [done|].
  run_step. destruct (parse_kv E (c :: args)); reflexivity.
Qed.

(** Normalization returns a dictionary for the empty string only. *)
Lemma normalize_args_returned (args : text) (check : bool) t bundle :
  normalize_args E args check = (t, Returned bundle) → args = [] ∧ t = [].
Proof.
  intros H.
  destruct args as [|c args].
  - split; [done|]. change t with (fst (t, @Returned (gmap text value) bundle)).
    rewrite <- H. by destruct check.
  - destruct (startswith (c :: args) (py "@")) eqn:H1.
    { rewrite normalize_args_at in H by done. discriminate. }
    destruct (startswith (c :: args) (py "{")) eqn:H2.
    { rewrite normalize_args_brace in H by done. discriminate. }
    rewrite normalize_args_inline in H by done. discriminate.
Qed.

(** Every argument string but the empty one ends normalization with an
    exception, and [boilerplate_module] with it. *)
Lemma normalize_args_nonempty_raises (args : text) (check : bool) :
  args ≠ [] → ∃ t e, normalize_args E args check = (t, Raised e).
Proof.
  intros Hne. destruct (normalize_args E args check) as [t [bundle|e]] eqn:H; [|eauto].
  by destruct (normalize_args_returned _ _ _ _ H).
Qed.

Lemma boilerplate_module_nonempty_raises (modfile args : text)
    (interpreters : gmap text text) (check : bool) (destfile : text) :
  args ≠ [] →
  ∃ t e, boilerplate_module E modfile args interpreters check destfile = (t, Raised e).
Proof.
  intros Hne. destruct (normalize_args_nonempty_raises args check Hne) as (t & e & H).
  exists t, e. unfold boilerplate_module. rewrite H. reflexivity.
Qed.

(** Check mode adds its key to the injected ones. *)
Lemma normalize_args_empty_check :
  ∃ bundle, normalize_args E [] true = ([], Returned bundle) ∧
            bundle !! py "_ansible_check_mode" = Some (VBool true).
Proof. eexists. split; [reflexivity|]. apply lookup_insert_eq. Qed.

(** In a merge the second dictionary wins. *)
Lemma combine_vars_lookup (a b : gmap text value) (k : text) :
  combine_vars a b !! k = match b !! k with Some v => Some v | None => a !! k end.
Proof.
  unfold combine_vars. rewrite lookup_union.
  destruct (b !! k), (a !! k); reflexivity.
Qed.

End Normalize.

(** C10. With the empty argument string and check mode off, normalization
    calls no loader and no parser and returns; the dictionary it returns,
    which is the one [boilerplate_module] hands to the packaging engine, has
    the four injected keys with the configured defaults and no other key. *)
Theorem empty_args_bundle (E : Env) (modfile : text) (interpreters : gmap text text)
    (destfile : text) :
  ∃ bundle : gmap text value,
    normalize_args E [] false = ([], Returned bundle) ∧
    (∀ k : text,
       bundle !! k =
       if decide (k = py "_ansible_selinux_special_fs") then Some (DEFAULT_SELINUX_SPECIAL_FS E)
       else if decide (k = py "_ansible_tmpdir") then Some (DEFAULT_LOCAL_TMP E)
       else if decide (k = py "_ansible_keep_remote_files") then Some (DEFAULT_KEEP_REMOTE_FILES E)
       else if decide (k = py "_ansible_version") then Some (version E)
       else None) ∧
    size bundle = 4 ∧
    ∃ t r,
      boilerplate_module E modfile [] interpreters false destfile =
      (ModifyModule (fst (splitext (basename modfile))) modfile bundle interpreters :: t, r).
Proof.
  eexists. split; [apply normalize_args_empty|]. split; [|split].
  - intros k. rewrite !lookup_insert, lookup_empty.
    repeat case_decide; simplify_eq; try done.
  - rewrite !map_size_insert_None, map_size_empty; [done|..];
      rewrite ?lookup_insert, ?lookup_empty; repeat case_decide; simplify_eq; done.
  - unfold boilerplate_module. rewrite normalize_args_empty. run_step.
    match goal with |- context [modify_module ?e ?a ?b ?c ?d] =>
      destruct (modify_module e a b c d) as [[[data style] shebang]|err] end.
    + destruct (attempt _ _) as [t' [[]|e']] eqn:Hw; simpl;
        destruct (warns _); simpl; rewrite ?Hw; eauto.
    + eauto.
Qed.

(** *** Packaging *)

Section Package.
Context (E : Env).


Lemma classify_cases (style : text) (data : bytes) :
  classify E style data =
  if bool_decide (style = py "new") && contains wrapper_marker (to_text E data)
  then py "ansiballz" else style.
Proof. reflexivity. Qed.



End Package.






(** *** Unwrapping *)

Section Unwrap.
Context (E : Env).

Lemma explode_output_bad_iff (lines : list text) :
  explode_output_bad lines = true ↔
  length lines ≠ 2 ∨ contains expansion_marker (nth 0 lines []) = false.
Proof.
  unfold explode_output_bad.
  rewrite orb_true_iff, !negb_true_iff, Nat.eqb_neq. done.
Qed.

(** The explode child ran and its output decoded: what [ansiballz_setup]
    does next is decided by the test of line 187.  When the output passes,
    the next statement reads [glob]. *)
Lemma ansiballz_setup_after_explode (modfile modname : text)
    (interpreters : gmap text text) outb errb out :
  os_chmod E modfile 493 = Returned tt →
  popen E false (explode_command modfile interpreters) = Returned (outb, errb) →
  to_text_strict E outb = Returned out →
  ansiballz_setup E modfile modname interpreters =
  if explode_output_bad (splitlines out) then
    ([Chmod modfile 493; Spawn false (explode_command modfile interpreters);
      Print stars; Print (py "INVALID OUTPUT FROM ANSIBALLZ MODULE WRAPPER")]
       ++ (if stdout_accepts E out then [Print out] else []),
     Raised (if stdout_accepts E out then SystemExit (ExitText (to_text E errb))
             else Error "UnicodeEncodeError"))
  else
    ([Chmod modfile 493; Spawn false (explode_command modfile interpreters)],
     Raised (NameError "glob")).
Proof.
  intros Hc Hp Ht. unfold ansiballz_setup, attempt, print_decoded.
  rewrite Hc. run_step. rewrite Hp. simpl. rewrite Ht. simpl.
  destruct (explode_output_bad (splitlines out)); [|reflexivity].
  destruct (stdout_accepts E out); reflexivity.
Qed.

(** A bundled module is unwrapped before anything is run. *)
Lemma runtest_resolve_ansiballz (modfile modname : text) (interpreters : gmap text text) t e :
  ansiballz_setup E modfile modname interpreters = (t, Raised e) →
  runtest E modfile modname (py "ansiballz") interpreters = (t, Raised e).
Proof.
  intros H. unfold runtest, runtest_resolve. simpl. run_step. rewrite H. reflexivity.
Qed.

(** The inner loop: the first matching name of a directory ends it. *)
Lemma scan_filenames_hit (dirname modname : text) (filenames : list text) (modfile : text) :
  modname ++ py ".py" ∈ filenames →
  scan_filenames dirname modname filenames modfile = path_join dirname (modname ++ py ".py").
Proof.
  induction filenames as [|f rest IH]; intros Hin; [by apply elem_of_nil in Hin|].
  simpl. unfold text_eqb. case_bool_decide as Hf; [by subst|].
  apply IH. apply elem_of_cons in Hin as [Heq|Hin]; [congruence|done].
Qed.

Lemma scan_filenames_miss (dirname modname : text) (filenames : list text) (modfile : text) :
  modname ++ py ".py" ∉ filenames →
  scan_filenames dirname modname filenames modfile = modfile.
Proof.
  induction filenames as [|f rest IH]; intros Hin; [done|].
  simpl. unfold text_eqb. apply not_elem_of_cons in Hin as [Hne Hin].
  rewrite bool_decide_eq_false_2 by congruence. by apply IH.
Qed.

(** A directory without the file leaves the result alone. *)
Lemma scan_walk_miss (modname : text) (walk : list (text * list text * list text))
    (modfile : text) :
  Forall (fun entry => modname ++ py ".py" ∉ snd entry) walk →
  scan_walk modname walk modfile = modfile.
Proof.
  intros H. revert modfile. induction H as [|[[d ds] fs] walk Hd _ IH]; intros modfile; [done|].
  unfold scan_walk in *. simpl. rewrite scan_filenames_miss by done. apply IH.
Qed.

(** The walk goes on after a match: the last directory that has the file
    decides. *)
Lemma scan_walk_last (modname : text) (before after : list (text * list text * list text))
    (dirname : text) (directories filenames : list text) (modfile : text) :
  modname ++ py ".py" ∈ filenames →
  Forall (fun entry => modname ++ py ".py" ∉ snd entry) after →
  scan_walk modname (before ++ (dirname, directories, filenames) :: after) modfile
  = path_join dirname (modname ++ py ".py").
Proof.
  intros Hin Hafter. unfold scan_walk. rewrite fold_left_app. simpl.
  rewrite scan_filenames_hit by done. by apply scan_walk_miss.
Qed.

Lemma locate_module_miss (modname : text) (module_dirs : list text) (modfile : text) :
  Forall (fun module_dir =>
            Forall (fun entry => modname ++ py ".py" ∉ snd entry) (os_walk E module_dir))
         module_dirs →
  locate_module E modname module_dirs modfile = modfile.
Proof.
  intros H. revert modfile. induction H as [|d dirs Hd _ IH]; intros modfile; [done|].
  unfold locate_module in *. simpl. rewrite scan_walk_miss by done. apply IH.
Qed.

(** [ansiballz_setup] never returns: it ends at the exit of line 191, at the
    read of [glob] of line 194, or earlier in a collaborator. *)
Lemma ansiballz_setup_never_returns (modfile modname : text)
    (interpreters : gmap text text) t paths :
  ansiballz_setup E modfile modname interpreters ≠ (t, Returned paths).
Proof.
  destruct (os_chmod E modfile 493) as [[]|e1] eqn:Hc.
  2:{ unfold ansiballz_setup, attempt. rewrite Hc. run_step. discriminate. }
  destruct (popen E false (explode_command modfile interpreters)) as [[outb errb]|e2] eqn:Hp.
  2:{ unfold ansiballz_setup, attempt. rewrite Hc. run_step. rewrite Hp. discriminate. }
  destruct (to_text_strict E outb) as [out|e3] eqn:Ht.
  2:{ unfold ansiballz_setup, attempt. rewrite Hc. run_step. rewrite Hp. simpl.
      rewrite Ht. discriminate. }
  rewrite (ansiballz_setup_after_explode _ _ _ _ _ _ Hc Hp Ht).
  destruct (explode_output_bad (splitlines out)); discriminate.
Qed.

End Unwrap.

(** *** Running and reporting *)

Section Run.
Context (E : Env).

(** The script run as a program always ends in its [finally] clause, which
    reads [shutil]. *)
Lemma harness_outcome : snd (harness E) = Raised (NameError "shutil").
Proof. unfold harness, try_finally. destruct (main E) as [t r]. reflexivity. Qed.

Lemma harness_trace : fst (harness E) = fst (main E).
Proof.
  unfold harness, try_finally. destruct (main E) as [t r]. simpl. apply app_nil_r.
Qed.

Lemma harness_exit_status : exit_status (snd (harness E)) = 1%Z.
Proof. rewrite harness_outcome. reflexivity. Qed.

(** [main] up to the call of [runtest]. *)
Lemma main_runs_test (a : cli_args) (interpreters : gmap text text) tb modfile modname style :
  parse E = Returned a →
  init_plugin_loader E = Returned tt →
  get_interpreters E (interpreter a) = Returned interpreters →
  boilerplate_module E (module_path a) (module_args a) interpreters (check a) (filename a)
    = (tb, Returned (modfile, modname, style)) →
  execute a = true →
  truthy (debugger a) = false →
  main E = (tb ++ fst (runtest E modfile modname style interpreters),
            snd (runtest E modfile modname style interpreters)).
Proof.
  intros Hp Hi Hg Hb He Hd. unfold main. rewrite Hp, Hi. run_step.
  rewrite Hg, Hb, He, Hd. simpl.
  destruct (runtest E modfile modname style interpreters). reflexivity.
Qed.

(** A module of another style than [ansiballz] is run as it is staged. *)
Lemma runtest_resolve_plain (modfile modname style : text)
    (interpreters : gmap text text) :
  style ≠ py "ansiballz" →
  runtest_resolve E modfile modname style interpreters = ([], Returned (modfile, [])).
Proof.
  intros Hs. unfold runtest_resolve, text_eqb.
  rewrite bool_decide_eq_false_2 by done. reflexivity.
Qed.

(** The [try] block of [runtest] and its handler, by what the standard
    output stream encodes and what [json.loads] decodes. *)
Lemma report_raw_eq (out err : text) :
  report_raw E out err =
  if stdout_accepts E out then
    if stdout_accepts E err then
      match json_loads E out with
      | Some results =>
          ([Print stars; Print (py "RAW OUTPUT"); Print out; Print err], Returned results)
      | None =>
          ([Print stars; Print (py "RAW OUTPUT"); Print out; Print err;
            Print stars; Print (py "INVALID OUTPUT FORMAT"); Print out; PrintExc],
           Raised (SystemExit (ExitInt 1)))
      end
    else
      ([Print stars; Print (py "RAW OUTPUT"); Print out;
        Print stars; Print (py "INVALID OUTPUT FORMAT"); Print out; PrintExc],
       Raised (SystemExit (ExitInt 1)))
  else
    ([Print stars; Print (py "RAW OUTPUT");
      Print stars; Print (py "INVALID OUTPUT FORMAT")],
     Raised (Error "UnicodeEncodeError")).
Proof.
  unfold report_raw, print_decoded.
  destruct (stdout_accepts E out); [|reflexivity].
  destruct (stdout_accepts E err); [|reflexivity].
  destruct (json_loads E out); reflexivity.
Qed.

(** [runtest] once the file to run is known and the child has ended. *)
Lemma runtest_after_child (modfile modname style : text) (interpreters : gmap text text)
    t0 target prefix outb errb :
  runtest_resolve E modfile modname style interpreters = (t0, Returned (target, prefix)) →
  os_chmod E target 493 = Returned tt →
  popen E true [prefix ++ target] = Returned (outb, errb) →
  runtest E modfile modname style interpreters =
  (t0 ++ [Chmod target 493; Spawn true [prefix ++ target]]
      ++ fst (report_raw E (to_text E outb) (to_text E errb))
      ++ match snd (report_raw E (to_text E outb) (to_text E errb)) with
         | Returned results =>
             [Print stars; Print (py "PARSED OUTPUT"); Print (json_dumps E results)]
         | Raised _ => []
         end,
   match snd (report_raw E (to_text E outb) (to_text E errb)) with
   | Returned _ => Returned tt
   | Raised e => Raised e
   end).
Proof.
  intros Hr Hc Hp. unfold runtest, attempt. rewrite Hr. run_step.
  rewrite Hc. simpl. rewrite Hp. simpl.
  destruct (report_raw E (to_text E outb) (to_text E errb)) as [t [results|e]]; simpl.
  - reflexivity.
  - by rewrite app_nil_r.
Qed.

End Run.

(** C4, as amended.  The output of the explode child does not have exactly
    two lines, or has a first line without [Module expanded into].  Then
    [ansiballz_setup] prints the banner and returns no pair of paths.  When
    the standard output stream encodes the raw output, the raw output is
    printed and the function ends with [sys.exit(err)], [err] being the text
    of the child's error stream; when it does not, the function ends with
    the [UnicodeEncodeError] of [print(out)].  [runtest] ends the same way
    without running the module, [main] too whenever it makes this call, and
    in both cases the exit status is not zero. *)
Theorem explode_protocol_violation (E : Env) (modfile modname : text)
    (interpreters : gmap text text) (outb errb : bytes) (out : text) :
  os_chmod E modfile 493 = Returned tt →
  popen E false (explode_command modfile interpreters) = Returned (outb, errb) →
  to_text_strict E outb = Returned out →
  length (splitlines out) ≠ 2 ∨
    contains expansion_marker (nth 0 (splitlines out) []) = false →
  let report :=
    [Chmod modfile 493; Spawn false (explode_command modfile interpreters);
     Print stars; Print (py "INVALID OUTPUT FROM ANSIBALLZ MODULE WRAPPER")]
      ++ (if stdout_accepts E out then [Print out] else []) in
  let ending :=
    if stdout_accepts E out then SystemExit (ExitText (to_text E errb))
    else Error "UnicodeEncodeError" in
  ansiballz_setup E modfile modname interpreters = (report, Raised ending) ∧
  runtest E modfile modname (py "ansiballz") interpreters = (report, Raised ending) ∧
  exit_status (@Raised unit ending) ≠ 0%Z ∧
  (∀ (a : cli_args) tb,
     parse E = Returned a →
     init_plugin_loader E = Returned tt →
     get_interpreters E (interpreter a) = Returned interpreters →
     boilerplate_module E (module_path a) (module_args a) interpreters (check a) (filename a)
       = (tb, Returned (modfile, modname, py "ansiballz")) →
     execute a = true →
     truthy (debugger a) = false →
     main E = (tb ++ report, Raised ending) ∧ fst (harness E) = tb ++ report) ∧
  exit_status (snd (harness E)) ≠ 0%Z.
Proof.
  intros Hc Hs Ht Hbad report ending.
  assert (Hsetup : ansiballz_setup E modfile modname interpreters = (report, Raised ending)).
  { rewrite (ansiballz_setup_after_explode E _ _ _ _ _ _ Hc Hs Ht).
    apply explode_output_bad_iff in Hbad. rewrite Hbad. reflexivity. }
  assert (Hrun : runtest E modfile modname (py "ansiballz") interpreters
                 = (report, Raised ending)).
  { by apply runtest_resolve_ansiballz. }
  split; [exact Hsetup|]. split; [exact Hrun|]. split.
  { subst ending. destruct (stdout_accepts E out); simpl; lia. }
  split.
  - intros a tb Hp Hi Hg Hb He Hd.
    assert (Hmain : main E = (tb ++ report, Raised ending)).
    { rewrite (main_runs_test E _ _ _ _ _ _ Hp Hi Hg Hb He Hd), Hrun. reflexivity. }
    split; [exact Hmain|]. by rewrite harness_trace, Hmain.
  - rewrite harness_exit_status. lia.
Qed.

Lemma explode_protocol_violation_witness :
  let exploded := py "Unpacked" ++ Mock.nl ++ py "/tmp/debug_dir" ++ Mock.nl in
  let E := Mock.env (Mock.bundled exploded (py "no such option: explode") Mock.no_copy) in
  let interpreters : gmap text text := {[ python_interpreter := py "/usr/bin/python" ]} in
  let modfile := py "/tmp/generated" in
  let modname := py "ping" in
  let out := Mock.decode (Mock.to_bytes exploded) in
  let errb := Mock.to_bytes (py "no such option: explode") in
  let report :=
    [Chmod modfile 493; Spawn false (explode_command modfile interpreters);
     Print stars; Print (py "INVALID OUTPUT FROM ANSIBALLZ MODULE WRAPPER")]
      ++ (if stdout_accepts E out then [Print out] else []) in
  let ending :=
    if stdout_accepts E out then SystemExit (ExitText (to_text E errb))
    else Error "UnicodeEncodeError" in
  ansiballz_setup E modfile modname interpreters = (report, Raised ending) ∧
  runtest E modfile modname (py "ansiballz") interpreters = (report, Raised ending) ∧
  exit_status (@Raised unit ending) ≠ 0%Z ∧
  (∀ (a : cli_args) tb,
     parse E = Returned a →
     init_plugin_loader E = Returned tt →
     get_interpreters E (interpreter a) = Returned interpreters →
     boilerplate_module E (module_path a) (module_args a) interpreters (check a) (filename a)
       = (tb, Returned (modfile, modname, py "ansiballz")) →
     execute a = true →
     truthy (debugger a) = false →
     main E = (tb ++ report, Raised ending) ∧ fst (harness E) = tb ++ report) ∧
  exit_status (snd (harness E)) ≠ 0%Z.
Proof.
  intros exploded E interpreters modfile modname out errb.
  apply (explode_protocol_violation E modfile modname interpreters
           (Mock.to_bytes exploded) errb out eq_refl eq_refl eq_refl).
  right. reflexivity.
Defined.

(** C4, as stated, fails.  The explode child prints the single byte E9; it
    is decoded as a lone surrogate, which a strict standard output does not
    encode.  The output has one line, so the test of line 187 rejects it, but
    the raw output is not reported and the function does not end with
    [sys.exit(err)]: after the banner, [print(out)] raises. *)
Lemma unprintable_explode_output :
  let E := Mock.strict Mock.latin1_explode in
  let interpreters : gmap text text := {[ python_interpreter := py "/usr/bin/python" ]} in
  to_text_strict E [xe9] = Returned [56553%N] ∧
  length (splitlines [56553%N]) ≠ 2 ∧
  ansiballz_setup E (py "/tmp/generated") (py "ping") interpreters
    = ([Chmod (py "/tmp/generated") 493;
        Spawn false [py "/usr/bin/python"; py "/tmp/generated"; py "explode"];
        Print stars; Print (py "INVALID OUTPUT FROM ANSIBALLZ MODULE WRAPPER")],
       Raised (Error "UnicodeEncodeError")) ∧
  Error "UnicodeEncodeError"
    ≠ SystemExit (ExitText (to_text E (Mock.to_bytes (py "no such option: explode")))).
Proof. repeat split; try reflexivity; discriminate. Qed.

(** A run of [main] that reaches the explode child: the module is packaged
    from an empty argument string, and [main] ends with the exit of line
    191. *)
Example rejected_explode_output_ends_main :
  let exploded := py "Unpacked" ++ Mock.nl ++ py "/tmp/debug_dir" ++ Mock.nl in
  let E := Mock.env (Mock.bundled exploded (py "no such option: explode") Mock.no_copy) in
  snd (boilerplate_module E (py "/src/ping.py") [] {[ python_interpreter := py "/usr/bin/python" ]}
         false (py "/tmp/generated"))
    = Returned (py "/tmp/generated", py "ping", py "ansiballz") ∧
  snd (main E) = Raised (SystemExit (ExitText (py "no such option: explode"))).
Proof. split; reflexivity. Qed.

(** Outputs of no line, one line and three lines fail the test of line 187,
    and so does a two-line output without the marker; the expected output
    passes it. *)
Example explode_output_no_line : explode_output_bad (splitlines []) = true.
Proof. reflexivity. Qed.

Example explode_output_one_line :
  explode_output_bad (splitlines (py "Module expanded into:" ++ Mock.nl)) = true.
Proof. reflexivity. Qed.

Example explode_output_three_lines :
  explode_output_bad (splitlines (Mock.expanded ++ py "done" ++ Mock.nl)) = true.
Proof. reflexivity. Qed.

Example explode_output_mismarked :
  explode_output_bad (splitlines (py "Unpacked" ++ Mock.nl ++ py "/tmp/debug_dir" ++ Mock.nl)) = true.
Proof. reflexivity. Qed.

Example explode_output_expected : explode_output_bad (splitlines Mock.expanded) = false.
Proof. reflexivity. Qed.

(** C2 fails on the code.  The explode child prints the expected two lines
    and [ping.py] exists both under [ansible/modules] and in a collection:
    [ansiballz_setup] ends with [NameError] when it reads [glob], and returns
    no path.  The loop nest of lines 197 to 202, run on the same tree, ends
    with the copy found last (the collection's), not with the copy found
    first, which the inner loop alone returns for the first directory that
    has the file. *)
Theorem unwrap_two_copies :
  let E := Mock.env (Mock.bundled Mock.expanded [] Mock.two_copies) in
  let interpreters : gmap text text := {[ python_interpreter := py "/usr/bin/python" ]} in
  let module_dirs :=
    glob_glob E (path_join (py "/tmp/debug_dir") (py "ansible/modules")) ++
    glob_glob E (path_join (py "/tmp/debug_dir") (py "ansible_collections/*/*/plugins/modules")) in
  ansiballz_setup E (py "/tmp/generated") (py "ping") interpreters
    = ([Chmod (py "/tmp/generated") 493;
        Spawn false [py "/usr/bin/python"; py "/tmp/generated"; py "explode"]],
       Raised (NameError "glob")) ∧
  scan_filenames (py "/tmp/debug_dir/ansible/modules/system") (py "ping")
    [py "__init__.py"; py "ping.py"] (py "/tmp/generated")
    = py "/tmp/debug_dir/ansible/modules/system/ping.py" ∧
  locate_module E (py "ping") module_dirs (py "/tmp/generated")
    = py "/tmp/debug_dir/ansible_collections/ns/col/plugins/modules/ping.py".
Proof. repeat split; reflexivity. Qed.

(** C9 fails on the code.  The explode child prints the expected two lines
    and no [ping.py] exists in the tree: [ansiballz_setup] ends with
    [NameError] when it reads [glob] and returns neither the staged path nor
    the argument file.  The loop nest of lines 197 to 202 on that tree keeps
    the staged path, and line 204 names [args] under the debug directory. *)
Theorem unwrap_no_copy :
  let E := Mock.env (Mock.bundled Mock.expanded [] Mock.no_copy) in
  let interpreters : gmap text text := {[ python_interpreter := py "/usr/bin/python" ]} in
  let debug_dir := strip (nth 1 (splitlines Mock.expanded) []) in
  let module_dirs :=
    glob_glob E (path_join debug_dir (py "ansible/modules")) ++
    glob_glob E (path_join debug_dir (py "ansible_collections/*/*/plugins/modules")) in
  ansiballz_setup E (py "/tmp/generated") (py "ping") interpreters
    = ([Chmod (py "/tmp/generated") 493;
        Spawn false [py "/usr/bin/python"; py "/tmp/generated"; py "explode"]],
       Raised (NameError "glob")) ∧
  locate_module E (py "ping") module_dirs (py "/tmp/generated") = py "/tmp/generated" ∧
  path_join debug_dir (py "args") = py "/tmp/debug_dir/args".
Proof. repeat split; reflexivity. Qed.




(** A run of [main] that reaches the module: it is packaged from an empty
    argument string, prints no JSON, and [main] ends with the exit of line
    160. *)
Example rejected_module_output_ends_main :
  let E := Mock.env (Mock.plain "" "new" (py "oops")) in
  snd (boilerplate_module E (py "/src/ping.py") [] {[ python_interpreter := py "/usr/bin/python" ]}
         false (py "/tmp/generated"))
    = Returned (py "/tmp/generated", py "ping", py "new") ∧
  snd (main E) = Raised (SystemExit (ExitInt 1)).
Proof. split; reflexivity. Qed.

(** C3 fails on the code.  The module is a legacy one that prints
    [{"changed": false, "msg": "ok"}]: the harness prints the parsed-output
    banner and the formatted value, [main] returns, and the [finally] clause
    then reads [shutil], which ends the process with [NameError] and exit
    status 1 instead of 0. *)
Theorem harness_ok_document :
  let E := Mock.env (Mock.plain "" "old" Mock.ok_document) in
  json_loads E Mock.ok_document = Some Mock.ok_value ∧
  snd (main E) = Returned tt ∧
  printed (fst (harness E))
    = [saving_note (py "/tmp/generated");
       stars; py "RAW OUTPUT"; Mock.ok_document; [];
       stars; py "PARSED OUTPUT"; json_dumps E Mock.ok_value] ∧
  snd (harness E) = Raised (NameError "shutil") ∧
  exit_status (snd (harness E)) = 1%Z.
Proof. repeat split; reflexivity. Qed.

(** C7 fails on the code.  For the argument string [a=1 a=2], with a
    [parse_kv] that returns [{a: "2"}], normalization ends with [NameError]
    when it reads [utils_vars] to merge the parsed arguments: no dictionary
    is returned and the packaging engine is never called. *)
Theorem inline_args_raise :
  let E := Mock.env (Mock.plain "a=1 a=2" "new" Mock.ok_document) in
  parse_kv E (py "a=1 a=2") = Returned {[ py "a" := VStr (py "2") ]} ∧
  normalize_args E (py "a=1 a=2") false
    = ([ParseKv (py "a=1 a=2")], Raised (NameError "utils_vars")) ∧
  boilerplate_module E (py "/src/ping.py") (py "a=1 a=2") ∅ false (py "/tmp/generated")
    = ([ParseKv (py "a=1 a=2")], Raised (NameError "utils_vars")).
Proof. repeat split; reflexivity. Qed.

(** C8 fails on the code.  For a literal document that sets
    [_ansible_tmpdir], for a file reference and for inline arguments,
    normalization ends with [NameError] when it reads [utils_vars]; the
    loaders are not even called.  No dictionary is returned, so neither the
    injected keys nor the values of the caller reach the packaging engine. *)
Theorem supplied_args_raise :
  let E := Mock.env (Mock.plain "" "new" Mock.ok_document) in
  let document := py "{" ++ Mock.quoted "_ansible_tmpdir" ++ py ": " ++ Mock.quoted "/x" ++ py "}" in
  load E document = Returned {[ py "_ansible_tmpdir" := VStr (py "/x") ]} ∧
  normalize_args E document false = ([], Raised (NameError "utils_vars")) ∧
  normalize_args E (py "@/tmp/args.yml") false = ([], Raised (NameError "utils_vars")) ∧
  normalize_args E (py "_ansible_tmpdir=/x") false
    = ([ParseKv (py "_ansible_tmpdir=/x")], Raised (NameError "utils_vars")) ∧
  boilerplate_module E (py "/src/ping.py") document ∅ false (py "/tmp/generated")
    = ([], Raised (NameError "utils_vars")).
Proof. repeat split; reflexivity. Qed.

(** ** Further properties of the script *)

(** *** Normalization and packaging *)

(** With an empty argument string and check mode on, the check-mode key is
    added last. *)
Lemma normalize_args_empty_checked (E : Env) :
  normalize_args E [] true =
  ([], Returned (<[py "_ansible_check_mode" := VBool true]>
                 (<[py "_ansible_version" := version E]>
                  (<[py "_ansible_keep_remote_files" := DEFAULT_KEEP_REMOTE_FILES E]>
                   (<[py "_ansible_tmpdir" := DEFAULT_LOCAL_TMP E]>
                    (<[py "_ansible_selinux_special_fs" := DEFAULT_SELINUX_SPECIAL_FS E]> ∅)))))).
Proof. reflexivity. Qed.

(** Lines 84 to 103.  Whenever normalization returns a dictionary, the
    check-mode key is in it, with [True], exactly when check mode is on, and
    the four injected keys hold the configured defaults. *)
Theorem check_mode_key (E : Env) (args : text) (check : bool) t bundle :
  normalize_args E args check = (t, Returned bundle) →
  bundle !! py "_ansible_check_mode" = (if check then Some (VBool true) else None) ∧
  bundle !! py "_ansible_selinux_special_fs" = Some (DEFAULT_SELINUX_SPECIAL_FS E) ∧
  bundle !! py "_ansible_tmpdir" = Some (DEFAULT_LOCAL_TMP E) ∧
  bundle !! py "_ansible_keep_remote_files" = Some (DEFAULT_KEEP_REMOTE_FILES E) ∧
  bundle !! py "_ansible_version" = Some (version E).
Proof.
  intros H. destruct (normalize_args_returned E _ _ _ _ H) as [-> ->].
  destruct check.
  - rewrite normalize_args_empty_checked in H. inversion H; subst.
    repeat split; rewrite !lookup_insert, ?lookup_empty;
      repeat case_decide; simplify_eq; done.
  - rewrite normalize_args_empty in H. inversion H; subst.
    repeat split; rewrite !lookup_insert, ?lookup_empty;
      repeat case_decide; simplify_eq; done.
Qed.

Lemma check_mode_key_witness :
  let E := Mock.env (Mock.plain "" "new" Mock.ok_document) in
  let bundle : gmap text value :=
    <[py "_ansible_check_mode" := VBool true]>
      (<[py "_ansible_version" := version E]>
        (<[py "_ansible_keep_remote_files" := DEFAULT_KEEP_REMOTE_FILES E]>
          (<[py "_ansible_tmpdir" := DEFAULT_LOCAL_TMP E]>
            (<[py "_ansible_selinux_special_fs" := DEFAULT_SELINUX_SPECIAL_FS E]> ∅)))) in
  bundle !! py "_ansible_check_mode" = Some (VBool true) ∧
  bundle !! py "_ansible_selinux_special_fs" = Some (DEFAULT_SELINUX_SPECIAL_FS E) ∧
  bundle !! py "_ansible_tmpdir" = Some (DEFAULT_LOCAL_TMP E) ∧
  bundle !! py "_ansible_keep_remote_files" = Some (DEFAULT_KEEP_REMOTE_FILES E) ∧
  bundle !! py "_ansible_version" = Some (version E).
Proof.
  intros E bundle.
  exact (check_mode_key E [] true [] bundle (normalize_args_empty_checked E)).
Defined.

(** Lines 89 to 98.  With any argument string but the empty one,
    [boilerplate_module] ends with an exception before the packaging engine
    is called and before anything is printed or written: at once, without
    calling a loader, for a file reference or a literal document; after the
    one call of [parse_kv] for inline arguments. *)
Theorem nonempty_args_stop_before_packaging (E : Env) (modfile args : text)
    (interpreters : gmap text text) (check : bool) (destfile : text) :
  args ≠ [] →
  boilerplate_module E modfile args interpreters check destfile =
  if startswith args (py "@") || startswith args (py "{")
  then ([], Raised (NameError "utils_vars"))
  else ([ParseKv args],
        Raised (match parse_kv E args with
                | Returned _ => NameError "utils_vars"
                | Raised e => e
                end)).
Proof.
  intros Hne. unfold boilerplate_module.
  destruct (startswith args (py "@")) eqn:H1; simpl.
  { rewrite normalize_args_at by done. reflexivity. }
  destruct (startswith args (py "{")) eqn:H2; simpl.
  { rewrite normalize_args_brace by done. reflexivity. }
  rewrite normalize_args_inline by done. reflexivity.
Qed.

Lemma nonempty_args_stop_before_packaging_witness :
  let E := Mock.env (Mock.plain "name=foo" "new" Mock.ok_document) in
  boilerplate_module E (py "/src/ping.py") (py "name=foo state=present") ∅ true (py "/tmp/generated") =
  if startswith (py "name=foo state=present") (py "@")
     || startswith (py "name=foo state=present") (py "{")
  then ([], Raised (NameError "utils_vars"))
  else ([ParseKv (py "name=foo state=present")],
        Raised (match parse_kv E (py "name=foo state=present") with
                | Returned _ => NameError "utils_vars"
                | Raised e => e
                end)).
Proof.
  intros E.
  apply (nonempty_args_stop_before_packaging E (py "/src/ping.py")
           (py "name=foo state=present") ∅ true (py "/tmp/generated")).
  discriminate.
Defined.

(** Lines 107 to 123.  When the packaging engine raises, the exception
    leaves [boilerplate_module] unchanged: after the call of the engine
    nothing is printed and the destination file is not written. *)
Theorem engine_failure_writes_nothing (E : Env) (modfile args : text)
    (interpreters : gmap text text) (check : bool) (destfile : text) t0 bundle e :
  normalize_args E args check = (t0, Returned bundle) →
  modify_module E (fst (splitext (basename modfile))) modfile bundle interpreters = Raised e →
  boilerplate_module E modfile args interpreters check destfile =
  (t0 ++ [ModifyModule (fst (splitext (basename modfile))) modfile bundle interpreters],
   Raised e).
Proof.
  intros Hn Hm. unfold boilerplate_module. rewrite Hn. run_step. rewrite Hm. reflexivity.
Qed.

Lemma engine_failure_writes_nothing_witness :
  let E := Mock.broken_engine in
  let bundle : gmap text value :=
    <[py "_ansible_version" := version E]>
      (<[py "_ansible_keep_remote_files" := DEFAULT_KEEP_REMOTE_FILES E]>
        (<[py "_ansible_tmpdir" := DEFAULT_LOCAL_TMP E]>
          (<[py "_ansible_selinux_special_fs" := DEFAULT_SELINUX_SPECIAL_FS E]> ∅))) in
  boilerplate_module E (py "/src/ping.py") [] ∅ false (py "/tmp/generated") =
  ([] ++ [ModifyModule (fst (splitext (basename (py "/src/ping.py")))) (py "/src/ping.py") bundle ∅],
   Raised (Error "AnsibleError")).
Proof.
  intros E bundle.
  exact (engine_failure_writes_nothing E (py "/src/ping.py") [] ∅ false (py "/tmp/generated")
           [] bundle (Error "AnsibleError") (normalize_args_empty E) eq_refl).
Defined.



(** Lines 115 and 116.  Classifying twice changes nothing, and the final
    style is [new] exactly when the engine reported [new] for a payload
    without the wrapper marker: a payload with the marker is never left as
    [new]. *)
Theorem classify_stable (E : Env) (style : text) (data : bytes) :
  classify E (classify E style data) data = classify E style data ∧
  (classify E style data = py "new" ↔
   style = py "new" ∧ contains wrapper_marker (to_text E data) = false).
Proof.
  rewrite !classify_cases.
  destruct (contains wrapper_marker (to_text E data)) eqn:Hc;
    destruct (decide (style = py "new")) as [->|Hs];
    rewrite ?(bool_decide_eq_false_2 _ Hs); simpl;
    rewrite ?(bool_decide_eq_false_2 _ Hs); simpl;
    (split; [reflexivity|]); split; try tauto; try discriminate.
  intros [_ ?]; discriminate.
Qed.

(** *** The module name *)

Lemma basename_from_plain (cur name : text) :
  47%N ∉ name → basename_from cur name = rev cur ++ name.
Proof.
  revert cur. induction name as [|c name IH]; intros cur Hn; simpl.
  - by rewrite app_nil_r.
  - apply not_elem_of_cons in Hn as [Hc Hn].
    destruct (N.eqb_spec c 47) as [->|_]; [done|].
    rewrite IH by done. simpl. by rewrite <- app_assoc.
Qed.

Lemma basename_from_slash (cur dir name : text) :
  47%N ∉ name → basename_from cur (dir ++ 47%N :: name) = name.
Proof.
  intros Hn. revert cur. induction dir as [|c dir IH]; intros cur; simpl.
  - by rewrite basename_from_plain.
  - destruct (c =? 47)%N; apply IH.
Qed.

Lemma rfind_from_absent (c : N) (p : text) (i : nat) (found : option nat) :
  c ∉ p → rfind_from c p i found = found.
Proof.
  revert i found. induction p as [|d p IH]; intros i found Hn; simpl; [done|].
  apply not_elem_of_cons in Hn as [Hc Hn].
  destruct (N.eqb_spec d c) as [->|_]; [done|]. by apply IH.
Qed.

Lemma rfind_from_last (c : N) (before after : text) (i : nat) (found : option nat) :
  c ∉ after →
  rfind_from c (before ++ c :: after) i found = Some (i + length before).
Proof.
  intros Hn. revert i found. induction before as [|d before IH]; intros i found; simpl.
  - rewrite N.eqb_refl, rfind_from_absent by done. f_equal. lia.
  - rewrite IH. f_equal. lia.
Qed.

(** The extension is what follows the last dot of a name that has something
    else than dots before it. *)
Lemma splitext_name (name ext : text) :
  47%N ∉ name → 47%N ∉ ext → 46%N ∉ ext →
  existsb (fun c => negb (c =? 46)%N) name = true →
  splitext (name ++ 46%N :: ext) = (name, 46%N :: ext).
Proof.
  intros Hn He Hd Hx. unfold splitext, rfind.
  rewrite rfind_from_last by done. simpl.
  rewrite rfind_from_absent.
  2:{ rewrite elem_of_app, elem_of_cons. intros [?|[?|?]]; done. }
  rewrite Nat.sub_0_r. simpl.
  rewrite drop_0, take_app_length, drop_app_length, Hx. reflexivity.
Qed.

(** With an empty argument string the packaging engine is called, under the
    name derived from the path of the module. *)
Lemma boilerplate_module_calls_engine (E : Env) (modfile : text)
    (interpreters : gmap text text) (check : bool) (destfile : text) :
  ∃ bundle t r,
    boilerplate_module E modfile [] interpreters check destfile =
    (ModifyModule (fst (splitext (basename modfile))) modfile bundle interpreters :: t, r).
Proof.
  unfold boilerplate_module.
  destruct check;
    [rewrite normalize_args_empty_checked | rewrite normalize_args_empty];
    run_step;
    (match goal with |- context [modify_module ?e ?a ?b ?c ?d] =>
       destruct (modify_module e a b c d) as [[[data style] shebang]|err] end;
     [ destruct (attempt _ _) as [t' [[]|e']] eqn:Hw; simpl;
         destruct (warns _); simpl; rewrite ?Hw; eauto
     | eauto ]).
Qed.

(** Lines 105 and 106.  For a module at [dir/name.ext], where [name] has no
    slash and is not made of dots only and [ext] has neither slash nor dot,
    the module name is [name]: the directory and the last extension are
    dropped, earlier dots of the name are kept, and [name] is the name the
    packaging engine is called with. *)
Theorem module_name_of_path (E : Env) (dir name ext : text)
    (interpreters : gmap text text) (check : bool) (destfile : text) :
  47%N ∉ name → 47%N ∉ ext → 46%N ∉ ext →
  existsb (fun c => negb (c =? 46)%N) name = true →
  let modfile := dir ++ py "/" ++ name ++ py "." ++ ext in
  fst (splitext (basename modfile)) = name ∧
  fst (splitext (basename (name ++ py "." ++ ext))) = name ∧
  ∃ bundle t r,
    boilerplate_module E modfile [] interpreters check destfile =
    (ModifyModule name modfile bundle interpreters :: t, r).
Proof.
  intros Hn He Hd Hx modfile.
  assert (Hname : 47%N ∉ name ++ 46%N :: ext).
  { rewrite elem_of_app, elem_of_cons. intros [?|[?|?]]; done. }
  assert (H1 : fst (splitext (basename modfile)) = name).
  { subst modfile. unfold basename. change (py "/") with [47%N]. change (py ".") with [46%N].
    simpl. rewrite basename_from_slash by done. by rewrite splitext_name. }
  split; [exact H1|]. split.
  - unfold basename. change (py ".") with [46%N]. simpl.
    rewrite basename_from_plain by done. simpl. by rewrite splitext_name.
  - destruct (boilerplate_module_calls_engine E modfile interpreters check destfile)
      as (bundle & t & r & H).
    rewrite H1 in H. eauto.
Qed.

Lemma module_name_of_path_witness :
  let E := Mock.env (Mock.plain "" "new" Mock.ok_document) in
  let modfile := py "/usr/lib/modules" ++ py "/" ++ py "my.ping" ++ py "." ++ py "py" in
  fst (splitext (basename modfile)) = py "my.ping" ∧
  fst (splitext (basename (py "my.ping" ++ py "." ++ py "py"))) = py "my.ping" ∧
  ∃ bundle t r,
    boilerplate_module E modfile [] ∅ false (py "/tmp/generated") =
    (ModifyModule (py "my.ping") modfile bundle ∅ :: t, r).
Proof.
  intros E.
  apply (module_name_of_path E (py "/usr/lib/modules") (py "my.ping") (py "py")
           ∅ false (py "/tmp/generated")).
  - vm_compute. intros H. repeat (apply elem_of_cons in H as [H|H]; [discriminate|]).
    by apply elem_of_nil in H.
  - vm_compute. intros H. repeat (apply elem_of_cons in H as [H|H]; [discriminate|]).
    by apply elem_of_nil in H.
  - vm_compute. intros H. repeat (apply elem_of_cons in H as [H|H]; [discriminate|]).
    by apply elem_of_nil in H.
  - reflexivity.
Defined.

(** *** Running a module *)

(** Lines 136 to 164.  A module of any style but [ansiballz] is started
    through the shell by its path alone, whatever interpreter is configured.
    When the standard output stream encodes both streams of the child and
    [json.loads] accepts what it printed (any JSON value, not only an
    object), [runtest] prints the raw-output banner, both streams, the
    parsed-output banner and the formatted value, in this order, and
    returns. *)
Theorem plain_module_reported (E : Env) (modfile modname style : text)
    (interpreters : gmap text text) (outb errb : bytes) (results : json) :
  style ≠ py "ansiballz" →
  os_chmod E modfile 493 = Returned tt →
  popen E true [modfile] = Returned (outb, errb) →
  stdout_accepts E (to_text E outb) = true →
  stdout_accepts E (to_text E errb) = true →
  json_loads E (to_text E outb) = Some results →
  runtest E modfile modname style interpreters =
  ([Chmod modfile 493; Spawn true [modfile];
    Print stars; Print (py "RAW OUTPUT"); Print (to_text E outb); Print (to_text E errb);
    Print stars; Print (py "PARSED OUTPUT"); Print (json_dumps E results)],
   Returned tt).
Proof.
  intros Hs Hc Hp Ho He Hj.
  rewrite (runtest_after_child E modfile modname style interpreters [] modfile []
             outb errb (runtest_resolve_plain E _ _ _ _ Hs) Hc Hp).
  rewrite report_raw_eq, Ho, He, Hj. reflexivity.
Qed.

Lemma plain_module_reported_witness :
  let E := Mock.env (Mock.plain "" "old" Mock.ok_document) in
  let outb := Mock.to_bytes Mock.ok_document in
  runtest E (py "/tmp/generated") (py "ping") (py "old")
          {[ python_interpreter := py "/usr/bin/python" ]} =
  ([Chmod (py "/tmp/generated") 493; Spawn true [py "/tmp/generated"];
    Print stars; Print (py "RAW OUTPUT"); Print (to_text E outb); Print (to_text E []);
    Print stars; Print (py "PARSED OUTPUT"); Print (json_dumps E Mock.ok_value)],
   Returned tt).
Proof.
  intros E outb.
  apply (plain_module_reported E (py "/tmp/generated") (py "ping") (py "old")
           {[ python_interpreter := py "/usr/bin/python" ]} outb [] Mock.ok_value).
  - discriminate.
  - reflexivity.
  - reflexivity.
  - reflexivity.
  - reflexivity.
  - reflexivity.
Defined.

(** Lines 149 to 160.  The [try] block encloses [print(err)]: when the
    standard output stream encodes what the module printed but not its error
    stream, the handler runs although [json.loads] was never called, and a
    module of a style other than [ansiballz] is reported as one with invalid
    output, whatever it printed: [runtest] ends with [sys.exit(1)]. *)
Theorem unprintable_stderr_reported_invalid (E : Env) (modfile modname style : text)
    (interpreters : gmap text text) (outb errb : bytes) :
  style ≠ py "ansiballz" →
  os_chmod E modfile 493 = Returned tt →
  popen E true [modfile] = Returned (outb, errb) →
  stdout_accepts E (to_text E outb) = true →
  stdout_accepts E (to_text E errb) = false →
  runtest E modfile modname style interpreters =
  ([Chmod modfile 493; Spawn true [modfile];
    Print stars; Print (py "RAW OUTPUT"); Print (to_text E outb);
    Print stars; Print (py "INVALID OUTPUT FORMAT"); Print (to_text E outb); PrintExc],
   Raised (SystemExit (ExitInt 1))).
Proof.
  intros Hs Hc Hp Ho He.
  rewrite (runtest_after_child E modfile modname style interpreters [] modfile []
             outb errb (runtest_resolve_plain E _ _ _ _ Hs) Hc Hp).
  rewrite report_raw_eq, Ho, He. reflexivity.
Qed.

Lemma unprintable_stderr_reported_invalid_witness :
  let E := Mock.strict Mock.latin1_stderr in
  let outb := Mock.to_bytes Mock.ok_document in
  runtest E (py "/tmp/generated") (py "ping") (py "old")
          {[ python_interpreter := py "/usr/bin/python" ]} =
  ([Chmod (py "/tmp/generated") 493; Spawn true [py "/tmp/generated"];
    Print stars; Print (py "RAW OUTPUT"); Print (to_text E outb);
    Print stars; Print (py "INVALID OUTPUT FORMAT"); Print (to_text E outb); PrintExc],
   Raised (SystemExit (ExitInt 1))).
Proof.
  intros E outb.
  apply (unprintable_stderr_reported_invalid E (py "/tmp/generated") (py "ping") (py "old")
           {[ python_interpreter := py "/usr/bin/python" ]} outb [xe9]).
  - discriminate.
  - reflexivity.
  - reflexivity.
  - reflexivity.
  - reflexivity.
Defined.

Lemma ansiballz_setup_raises (E : Env) (modfile modname : text)
    (interpreters : gmap text text) :
  ∃ t e, ansiballz_setup E modfile modname interpreters = (t, Raised e) ∧
         ∀ command, Spawn true command ∉ t.
Proof.
  destruct (os_chmod E modfile 493) as [[]|e1] eqn:Hc.
  2:{ exists [], e1. split.
      - unfold ansiballz_setup, attempt. rewrite Hc. reflexivity.
      - intros c H. by apply elem_of_nil in H. }
  destruct (popen E false (explode_command modfile interpreters)) as [[outb errb]|e2] eqn:Hp.
  2:{ eexists _, e2. split.
      - unfold ansiballz_setup, attempt. rewrite Hc. run_step. rewrite Hp. reflexivity.
      - intros c H. repeat (apply elem_of_cons in H as [H|H]; [discriminate|]).
        by apply elem_of_nil in H. }
  destruct (to_text_strict E outb) as [out|e3] eqn:Ht.
  2:{ eexists _, e3. split.
      - unfold ansiballz_setup, attempt. rewrite Hc. run_step. rewrite Hp. simpl.
        rewrite Ht. reflexivity.
      - intros c H. simpl in H.
        repeat (apply elem_of_cons in H as [H|H]; [discriminate|]).
        by apply elem_of_nil in H. }
  rewrite (ansiballz_setup_after_explode _ _ _ _ _ _ _ Hc Hp Ht).
  destruct (explode_output_bad (splitlines out)); [destruct (stdout_accepts E out)|];
    eexists _, _; (split; [reflexivity|]);
    intros c H; simpl in H; repeat (apply elem_of_cons in H as [H|H]; [discriminate|]);
    by apply elem_of_nil in H.
Qed.

(** Lines 137 and 138 with lines 175 to 207.  A module of style [ansiballz]
    is never run: whatever the collaborators do, [runtest] ends with an
    exception and starts no child through the shell; the explode child is
    the only process it may start. *)
Theorem bundled_module_never_run (E : Env) (modfile modname : text)
    (interpreters : gmap text text) :
  ∃ t e, runtest E modfile modname (py "ansiballz") interpreters = (t, Raised e) ∧
         ∀ command, Spawn true command ∉ t.
Proof.
  destruct (ansiballz_setup_raises E modfile modname interpreters) as (t & e & H & Hn).
  exists t, e. split; [|exact Hn]. by apply runtest_resolve_ansiballz.
Qed.

(** *** The explode protocol *)

(** A line without line boundary, ended by a line feed, is split off. *)
Lemma splitlines_from_line (cur line rest : text) :
  Forall (fun c => is_linebreak c = false) line →
  splitlines_from cur (line ++ 10%N :: rest) = (rev cur ++ line) :: splitlines_from [] rest.
Proof.
  intros H. revert cur. induction H as [|c line Hc _ IH]; intros cur; simpl.
  - by rewrite app_nil_r.
  - rewrite Hc, IH. simpl. by rewrite <- app_assoc.
Qed.

Lemma splitlines_two_lines (first second : text) :
  Forall (fun c => is_linebreak c = false) first →
  Forall (fun c => is_linebreak c = false) second →
  splitlines (first ++ 10%N :: second ++ [10%N]) = [first; second].
Proof.
  intros H1 H2. unfold splitlines.
  rewrite splitlines_from_line by done. simpl.
  rewrite splitlines_from_line by done. reflexivity.
Qed.

(** Lines 186 to 194.  When the explode child prints two lines ended by
    line feeds, the first of which contains [Module expanded into], its
    output passes the test of line 187 and nothing is printed; the next
    statement reads [glob], and [ansiballz_setup] ends there with
    [NameError], before the debug directory is searched. *)
Theorem expected_explode_output (E : Env) (modfile modname : text)
    (interpreters : gmap text text) (outb errb : bytes) (first second : text) :
  os_chmod E modfile 493 = Returned tt →
  popen E false (explode_command modfile interpreters) = Returned (outb, errb) →
  to_text_strict E outb = Returned (first ++ 10%N :: second ++ [10%N]) →
  Forall (fun c => is_linebreak c = false) first →
  Forall (fun c => is_linebreak c = false) second →
  contains expansion_marker first = true →
  explode_output_bad (splitlines (first ++ 10%N :: second ++ [10%N])) = false ∧
  ansiballz_setup E modfile modname interpreters =
  ([Chmod modfile 493; Spawn false (explode_command modfile interpreters)],
   Raised (NameError "glob")).
Proof.
  intros Hc Hp Ht H1 H2 Hm.
  assert (Hok : explode_output_bad (splitlines (first ++ 10%N :: second ++ [10%N])) = false).
  { rewrite splitlines_two_lines by done. unfold explode_output_bad. simpl.
    rewrite Hm. reflexivity. }
  split; [exact Hok|].
  rewrite (ansiballz_setup_after_explode E _ _ _ _ _ _ Hc Hp Ht), Hok. reflexivity.
Qed.

Lemma expected_explode_output_witness :
  let E := Mock.env (Mock.bundled Mock.expanded [] Mock.no_copy) in
  let interpreters : gmap text text := {[ python_interpreter := py "/usr/bin/python" ]} in
  explode_output_bad
    (splitlines (py "Module expanded into:" ++ 10%N :: py "/tmp/debug_dir" ++ [10%N])) = false ∧
  ansiballz_setup E (py "/tmp/generated") (py "ping") interpreters =
  ([Chmod (py "/tmp/generated") 493;
    Spawn false (explode_command (py "/tmp/generated") interpreters)],
   Raised (NameError "glob")).
Proof.
  intros E interpreters.
  apply (expected_explode_output E (py "/tmp/generated") (py "ping") interpreters
           (Mock.to_bytes Mock.expanded) (Mock.to_bytes [])
           (py "Module expanded into:") (py "/tmp/debug_dir")).
  - reflexivity.
  - reflexivity.
  - reflexivity.
  - repeat constructor.
  - repeat constructor.
  - reflexivity.
Defined.

(** *** The search for the module *)

(** Lines 197 to 202.  The search does not stop at the first copy: when the
    walk of one of the searched directories meets a directory holding
    [modname.py] and no later directory, of this walk or of the walks after
    it, holds the file, the result is the path in that directory, whatever
    was found before. *)
Theorem search_ends_with_last_copy (E : Env) (modname : text)
    (dirs_before dirs_after : list text) (module_dir : text)
    (before after : list (text * list text * list text))
    (dirname : text) (directories filenames : list text) (modfile : text) :
  os_walk E module_dir = before ++ (dirname, directories, filenames) :: after →
  modname ++ py ".py" ∈ filenames →
  Forall (fun entry => modname ++ py ".py" ∉ snd entry) after →
  Forall (fun dir => Forall (fun entry => modname ++ py ".py" ∉ snd entry) (os_walk E dir))
         dirs_after →
  locate_module E modname (dirs_before ++ module_dir :: dirs_after) modfile
  = path_join dirname (modname ++ py ".py").
Proof.
  intros Hw Hin Hafter Hdirs. unfold locate_module.
  rewrite fold_left_app. simpl. rewrite Hw.
  rewrite (scan_walk_last modname before after dirname directories filenames) by done.
  by apply locate_module_miss.
Qed.

Lemma search_ends_with_last_copy_witness :
  let E := Mock.env (Mock.bundled Mock.expanded [] Mock.two_copies) in
  locate_module E (py "ping")
    ([py "/tmp/debug_dir/ansible/modules"]
       ++ py "/tmp/debug_dir/ansible_collections/ns/col/plugins/modules" :: [])
    (py "/tmp/generated")
  = path_join (py "/tmp/debug_dir/ansible_collections/ns/col/plugins/modules")
              (py "ping" ++ py ".py").
Proof.
  intros E.
  apply (search_ends_with_last_copy E (py "ping")
           [py "/tmp/debug_dir/ansible/modules"] []
           (py "/tmp/debug_dir/ansible_collections/ns/col/plugins/modules")
           [] [] (py "/tmp/debug_dir/ansible_collections/ns/col/plugins/modules")
           [] [py "ping.py"] (py "/tmp/generated")).
  - reflexivity.
  - apply elem_of_cons. left. reflexivity.
  - constructor.
  - constructor.
Defined.

(** Lines 197 to 202.  When no directory met by the walks holds
    [modname.py], the search leaves the staged path as it is. *)
Theorem search_without_copy (E : Env) (modname : text) (module_dirs : list text)
    (modfile : text) :
  (∀ module_dir dirname directories filenames,
     module_dir ∈ module_dirs →
     (dirname, directories, filenames) ∈ os_walk E module_dir →
     modname ++ py ".py" ∉ filenames) →
  locate_module E modname module_dirs modfile = modfile.
Proof.
  intros H. apply locate_module_miss.
  apply Forall_forall. intros module_dir Hd.
  apply Forall_forall. intros [[dirname directories] filenames] He. simpl.
  by apply (H module_dir dirname directories filenames).
Qed.

Lemma search_without_copy_witness :
  let E := Mock.env (Mock.bundled Mock.expanded [] Mock.no_copy) in
  locate_module E (py "ping") [py "/tmp/debug_dir/ansible/modules"] (py "/tmp/generated")
  = py "/tmp/generated".
Proof.
  intros E.
  apply (search_without_copy E (py "ping") [py "/tmp/debug_dir/ansible/modules"]
           (py "/tmp/generated")).
  intros module_dir dirname directories filenames Hd He.
  apply elem_of_cons in Hd as [->|Hd]; [|by apply elem_of_nil in Hd].
  apply elem_of_cons in He as [He|He]; [|by apply elem_of_nil in He].
  inversion He; subst. intros Hin.
  repeat (apply elem_of_cons in Hin as [Hin|Hin]; [discriminate|]).
  by apply elem_of_nil in Hin.
Defined.

(** *** The program *)

(** Lines 224 to 228.  Whatever [main] does and however it ends, the
    [finally] clause ends the script with [NameError] on [shutil]: the exit
    status is 1 on every run, and the clause adds nothing to what [main] did
    ([shutil.rmtree] is not called). *)
Theorem every_run_ends_in_cleanup_failure (E : Env) :
  snd (harness E) = Raised (NameError "shutil") ∧
  exit_status (snd (harness E)) = 1%Z ∧
  fst (harness E) = fst (main E).
Proof.
  split; [apply harness_outcome|]. split; [apply harness_exit_status|].
  apply harness_trace.
Qed.

(** Line 217.  With [-n] the module is packaged and nothing else happens:
    [main] does exactly what [boilerplate_module] does, neither [runtest] nor
    the debugger is entered, and [main] returns when [boilerplate_module]
    returns. *)
Theorem noexecute_only_packages (E : Env) (a : cli_args) (interpreters : gmap text text) :
  parse E = Returned a →
  init_plugin_loader E = Returned tt →
  get_interpreters E (interpreter a) = Returned interpreters →
  execute a = false →
  let packaged :=
    boilerplate_module E (module_path a) (module_args a) interpreters (check a) (filename a) in
  main E = (fst packaged,
            match snd packaged with
            | Returned _ => Returned tt
            | Raised e => Raised e
            end).
Proof.
  intros Hp Hi Hg He packaged. unfold main. rewrite Hp, Hi. run_step. rewrite Hg.
  fold packaged. destruct packaged as [t [[[modfile modname] style]|e]]; simpl.
  - rewrite He. simpl. by rewrite app_nil_r.
  - reflexivity.
Qed.

Lemma noexecute_only_packages_witness :
  let E := Mock.with_cli Mock.cli_noexecute in
  let packaged :=
    boilerplate_module E (py "/src/ping.py") [] {[ python_interpreter := py "/usr/bin/python" ]}
                       false (py "/tmp/generated") in
  main E = (fst packaged,
            match snd packaged with
            | Returned _ => Returned tt
            | Raised e => Raised e
            end).
Proof.
  intros E.
  exact (noexecute_only_packages E Mock.cli_noexecute
           {[ python_interpreter := py "/usr/bin/python" ]}
           eq_refl eq_refl eq_refl eq_refl).
Defined.

(** Lines 218 and 219.  With a debugger given, the module is packaged and
    [main] then ends with [NameError] on [rundebug], a name the script never
    defines: neither the debugger nor the module is started. *)
Theorem debugger_is_unbound (E : Env) (a : cli_args) (interpreters : gmap text text)
    tb modfile modname style :
  parse E = Returned a →
  init_plugin_loader E = Returned tt →
  get_interpreters E (interpreter a) = Returned interpreters →
  boilerplate_module E (module_path a) (module_args a) interpreters (check a) (filename a)
    = (tb, Returned (modfile, modname, style)) →
  execute a = true →
  truthy (debugger a) = true →
  main E = (tb, Raised (NameError "rundebug")).
Proof.
  intros Hp Hi Hg Hb He Hd. unfold main. rewrite Hp, Hi. run_step.
  rewrite Hg, Hb, He, Hd. simpl. by rewrite app_nil_r.
Qed.

Lemma debugger_is_unbound_witness :
  let E := Mock.with_cli Mock.cli_debugger in
  let tb := fst (boilerplate_module E (py "/src/ping.py") []
                   {[ python_interpreter := py "/usr/bin/python" ]} false (py "/tmp/generated")) in
  main E = (tb, Raised (NameError "rundebug")).
Proof.
  intros E tb.
  exact (debugger_is_unbound E Mock.cli_debugger
           {[ python_interpreter := py "/usr/bin/python" ]}
           tb (py "/tmp/generated") (py "ping") (py "old")
           eq_refl eq_refl eq_refl eq_refl eq_refl eq_refl).
Defined.
